(** * DollarSpotMap: the NASA POWER proxy endpoint of [server.py]

    A shallow embedding of [get_nasa_power_data] (the [/api/nasa-power]
    route) and of the data-quality reduction it performs: validation of the
    query, the single outbound call, the shape checks on the payload, the
    per-day validity filter, and the 5-day average.

    - Python floats are IEEE binary64 numbers: Rocq's primitive [float].
    - JSON values as [response.json()] returns them: [pyval]; a [dict] is a
      finite map with string keys.
    - [return] and [raise] inside the handler's [try] block: the [flow] monad.
    - The outbound [requests.get]: the handler either responds at once or
      asks for one URL and continues with the reply ([handler_run]).
    - Error messages are f-strings; they are kept as the list of their
      pieces ([frag]). The [print] calls only log and are left out, except
      where evaluating their argument can raise. *)

From Stdlib Require Import Floats ZArith Lia Bool.
From stdpp Require Import gmap strings list fin_maps sorting.

#[local] Set Warnings "-inexact-float,-register-all".
#[local] Open Scope string_scope.
#[local] Open Scope bool_scope.
#[local] Open Scope list_scope.

(** ** Python floats *)

(** An order-preserving code of the non-NaN doubles in [Z] (sign and
    magnitude of the bit pattern); it is used to reason about the float
    comparisons of the source, never to compute a response. *)
Definition key_inf : Z := 2047 * 2 ^ 53.

Definition fkey (x : float) : option Z :=
  match Prim2SF x with
  | S754_nan => None
  | S754_zero _ => Some 0%Z
  | S754_infinity s => Some (if s then - key_inf else key_inf)%Z
  | S754_finite s m e =>
      let k := ((e + 1075) * 2 ^ 53 + Z.pos m)%Z in
      Some (if s then - k else k)%Z
  end.

(** [float(n)] for a Python [int]: the nearest double, ties to even;
    [None] stands for [OverflowError] ("int too large to convert to float"). *)
Definition float_of_int (z : Z) : option float :=
  match binary_normalize prec emax z 0 false with
  | S754_infinity _ => None
  | sf => Some (SF2Prim sf)
  end.

(** [len(xs)] as the float operand of a division. *)
Definition float_of_len (n : nat) : float :=
  SF2Prim (binary_normalize prec emax (Z.of_nat n) 0 false).

(** [sum(xs)] for a list of floats: left to right from the integer 0
    (CPython's plain accumulation; from 3.12 on the interpreter compensates
    the rounding error of the additions, which may change the last bit). *)
Definition py_sum (xs : list float) : float :=
  fold_left (fun acc x => (acc + x)%float) xs 0%float.

(** The integer nearest to [a * 2^e], ties to even. *)
Definition round_half_even (a e : Z) : Z :=
  match e with
  | Zneg p =>
      let d := Z.pow_pos 2 p in
      let q := (a / d)%Z in
      match (2 * (a mod d) ?= d)%Z with
      | Lt => q
      | Gt => (q + 1)%Z
      | Eq => if Z.even q then q else (q + 1)%Z
      end
  | _ => (a * 2 ^ e)%Z
  end.

(** [round(x, 2)]: CPython rounds the exact binary value of [x] to two
    decimal places (ties to even) and returns the double nearest to that
    decimal; NaN, infinities and zeros round to themselves. *)
Definition py_round2 (x : float) : float :=
  match Prim2SF x with
  | S754_finite s m e =>
      match round_half_even (Z.pos m * 100) e with
      | Zpos n =>
          SF2Prim (SFdiv prec emax (S754_finite s n 0) (S754_finite false 100 0))
      | _ => SF2Prim (S754_zero s)
      end
  | _ => x
  end.

(** ** Python values *)

Inductive pyval :=
| PNone
| PBool (b : bool)
| PInt (z : Z)
| PFloat (f : float)
| PStr (s : string)
| PList (l : list pyval)
| PDict (d : gmap string pyval).

Inductive pytype := NoneType | TBool | TInt | TFloat | TStr | TList | TDict.

Definition type_of (v : pyval) : pytype :=
  match v with
  | PNone => NoneType
  | PBool _ => TBool
  | PInt _ => TInt
  | PFloat _ => TFloat
  | PStr _ => TStr
  | PList _ => TList
  | PDict _ => TDict
  end.

(** [bool(v)], as [not v] tests it. *)
Definition truthy (v : pyval) : bool :=
  match v with
  | PNone => false
  | PBool b => b
  | PInt z => negb (z =? 0)%Z
  | PFloat f => negb (f =? 0)%float
  | PStr s => negb (String.eqb s "")
  | PList l => negb (bool_decide (l = []))
  | PDict d => negb (bool_decide (d = ∅))
  end.

(** [d.get(k)]: [None] when the key is absent. *)
Definition get (d : gmap string pyval) (k : string) : pyval :=
  default PNone (d !! k).

(** [list(d.keys())]; the model does not keep the insertion order, which
    only the diagnostic messages show. *)
Definition keys (d : gmap string pyval) : list string :=
  (map_to_list d).*1.

(** [sorted(...)] on strings: ascending code points. *)
Definition py_sorted (l : list string) : list string :=
  merge_sort String.le l.

(** [xs[-5:]] *)
Definition last5 {A} (xs : list A) : list A :=
  drop (length xs - 5) xs.

Inductive pyexn :=
| RequestException (detail : string)
| HTTPError (status_code : Z)
| AttributeError
| TypeError
| ValueError
| OverflowError
| ZeroDivisionError.

(** [isinstance(e, requests.exceptions.RequestException)] *)
Definition is_request_exception (e : pyexn) : bool :=
  match e with
  | RequestException _ | HTTPError _ => true
  | _ => false
  end.

(** ** Responses *)

(** The pieces of an f-string. *)
Inductive frag :=
| Lit (s : string)
| Num (n : nat)
| Strs (l : list string)
| TypeName (t : pytype)
| ExnText (e : pyexn).

Record summary := {
  dates : list string;
  temperatures : list float;
  humidities : list float;
  avgTemp : float;
  avgHumidity : float;
  dataDays : nat
}.

Inductive response :=
| Success (s : summary)
| Failure (status : Z) (error : list frag).

(** Control flow of the body of the [try] block: go on, [return], [raise]. *)
Inductive flow (A : Type) : Type :=
| Go (a : A)
| Return (r : response)
| Raise (e : pyexn).
Arguments Go {A} a.
Arguments Return {A} r.
Arguments Raise {A} e.

#[global] Instance flow_ret : MRet flow := fun A a => Go a.
#[global] Instance flow_bind : MBind flow := fun A B f m =>
  match m with
  | Go a => f a
  | Return r => Return r
  | Raise e => Raise e
  end.

(** The two [except] clauses. *)
Definition handle_exn (f : flow response) : response :=
  match f with
  | Go r | Return r => r
  | Raise e =>
      if is_request_exception e
      then Failure 500 [Lit "APIリクエストエラー: "; ExnText e]
      else Failure 500 [Lit "サーバーエラー: "; ExnText e]
  end.

(** ** The validity filters (lines 150-193) *)

Definition temp_filter (tv : float) : option float :=
  if (tv <? -100)%float || (400 <? tv)%float then None
  else if (200 <=? tv)%float && (tv <=? 350)%float then Some tv
  else if (-80 <=? tv)%float && (tv <=? 80)%float then Some tv
  else if (-150 <? tv)%float && (tv <? 450)%float then Some tv
  else None.

Definition hum_filter (hv : float) : option float :=
  if negb (hv =? hv)%float then None
  else if (hv <? 0)%float || (100 <? hv)%float then None
  else Some hv.

(** ** The reducer (lines 209-243) *)

Definition msg_insufficient_valid (n : nat) (valid_dates : list string) : list frag :=
  [Lit "有効なデータが不足しています（"; Num n;
   Lit "日分）。最低3日間の有効なデータが必要です。有効な日付: "; Strs valid_dates].

(** [sum(xs) / len(xs)] *)
Definition py_mean (xs : list float) : flow float :=
  match xs with
  | [] => Raise ZeroDivisionError
  | _ => Go (py_sum xs / float_of_len (length xs))%float
  end.

Definition temp_celsius (avg_temp : float) : float :=
  if (100 <? avg_temp)%float then (avg_temp - 273.15)%float else avg_temp.

Definition average_reducer
    (valid_dates : list string) (temperatures humidities : list float)
    : flow response :=
  if (length temperatures <? 5)%nat && negb (3 <=? length temperatures)%nat
  then Return (Failure 500 (msg_insufficient_valid (length temperatures) valid_dates))
  else
    let '(temperatures, humidities, valid_dates) :=
      if (5 <? length temperatures)%nat
      then (last5 temperatures, last5 humidities, last5 valid_dates)
      else (temperatures, humidities, valid_dates) in
    avg_temp ← py_mean temperatures;
    avg_humidity ← py_mean humidities;
    Return (Success {|
      dates := valid_dates;
      temperatures := temperatures;
      humidities := humidities;
      avgTemp := py_round2 (temp_celsius avg_temp);
      avgHumidity := py_round2 avg_humidity;
      dataDays := length valid_dates |}).

(** ** The request and the provider's reply *)

(** [request.args.get('lat', type=float)] and the like: [None] when the
    parameter is missing or, for the two floats, not convertible. *)
Record query := {
  lat : option float;
  lng : option float;
  date_str : option string
}.

(** The URL of the outbound call: its four variable parts. *)
Record api_url := {
  longitude : float;
  latitude : float;
  start : string;
  end_ : string
}.

(** What [requests.get] does: it raises, or returns a response with a
    status code whose [.json()] returns a value or raises. *)
Inductive reply :=
| GetRaises (e : pyexn)
| GetReturns (status_code : Z) (json : pyexn + pyval).

(** One run of the handler: a response at once, or one outbound call and
    the response computed from its reply. *)
Inductive handler_run :=
| Respond (r : response)
| Fetch (url : api_url) (k : reply -> response).

(** ** Sample data *)

Definition sample_float_of_str (s : string) : option float :=
  if String.eqb s "21.5" then Some 21.5%float else None.

Definition sample_window (date_str : string) : pyexn + (string * string) :=
  if String.eqb date_str "2024-01-10" then inr ("20240103", "20240110")
  else inl ValueError.

Definition payload_of (temp_data humidity_data : pyval) : pyval :=
  PDict {[ "properties" :=
    PDict {[ "parameter" :=
      PDict (<["T2M" := temp_data]> {[ "RH2M" := humidity_data ]}) ]} ]}.

Definition series_of (l : list (string * pyval)) : gmap string pyval :=
  list_to_map l.

(** Eight days, two of them with the provider's missing-data marker as
    humidity; one temperature is an integer, one is wrapped in a list. *)
Definition week_T2M : gmap string pyval := series_of
  [("20240103", PFloat 289.5); ("20240104", PFloat 290.25);
   ("20240105", PInt 291); ("20240106", PFloat 292.5);
   ("20240107", PList [PFloat 293.75]); ("20240108", PFloat 294);
   ("20240109", PFloat 295.5); ("20240110", PFloat 296.25)].

Definition week_RH2M : gmap string pyval := series_of
  [("20240103", PFloat 61); ("20240104", PFloat (-999));
   ("20240105", PFloat 63.5); ("20240106", PFloat 64);
   ("20240107", PFloat 65.25); ("20240108", PFloat (-999));
   ("20240109", PFloat 67); ("20240110", PFloat 68.5)].

Definition week_payload : pyval := payload_of (PDict week_T2M) (PDict week_RH2M).

(** Four days in degrees Celsius, one of them without a usable humidity. *)
Definition celsius_T2M : gmap string pyval := series_of
  [("20240107", PFloat 14.5); ("20240108", PFloat 15);
   ("20240109", PStr "21.5"); ("20240110", PFloat 15.5)].

Definition celsius_RH2M : gmap string pyval := series_of
  [("20240107", PFloat 70); ("20240108", PFloat 71);
   ("20240109", PFloat 100.1); ("20240110", PFloat 72);
   ("20240111", PFloat 73)].

Definition celsius_payload : pyval :=
  payload_of (PDict celsius_T2M) (PDict celsius_RH2M).

(** Two raw dates only. *)
Definition short_T2M : gmap string pyval := series_of
  [("20240109", PFloat 295.5); ("20240110", PInt (10 ^ 400))].

Definition short_payload : pyval := payload_of (PDict short_T2M) (PDict week_RH2M).



(** A temperature series that is present and empty. *)
Definition empty_T2M_payload : pyval := payload_of (PDict ∅) (PDict week_RH2M).

Definition tokyo : query :=
  {| lat := Some 35.68%float; lng := Some 139.76%float;
     date_str := Some "2024-01-10" |}.

Definition tokyo_url : api_url :=
  {| longitude := 139.76; latitude := 35.68;
     start := "20240103"; end_ := "20240110" |}.

(** A point on the equator. *)
Definition equator : query :=
  {| lat := Some 0%float; lng := Some 139.76%float;
     date_str := Some "2024-01-10" |}.

Definition no_lng : query :=
  {| lat := Some 35.68%float; lng := None; date_str := Some "2024-01-10" |}.


(** A test double for the provider. *)
Definition week_provider (url : api_url) : reply :=
  GetReturns 200 (inr week_payload).

(** What the loop keeps of the two sample payloads. *)
Definition week_days : list string * list float * list float :=
  (["20240103"; "20240105"; "20240106"; "20240107"; "20240109"; "20240110"],
   [289.5; 291; 292.5; 293.75; 295.5; 296.25]%float,
   [61; 63.5; 64; 65.25; 67; 68.5]%float).

Definition celsius_days : list string * list float * list float :=
  (["20240107"; "20240108"; "20240110"],
   [14.5; 15; 15.5]%float, [70; 71; 72]%float).

Definition week_summary : summary :=
  {| dates := ["20240105"; "20240106"; "20240107"; "20240109"; "20240110"];
     temperatures := [291; 292.5; 293.75; 295.5; 296.25]%float;
     humidities := [63.5; 64; 65.25; 67; 68.5]%float;
     avgTemp := 20.65;
     avgHumidity := 65.65;
     dataDays := 5 |}.

Definition celsius_summary : summary :=
  {| dates := ["20240107"; "20240108"; "20240110"];
     temperatures := [14.5; 15; 15.5]%float;
     humidities := [70; 71; 72]%float;
     avgTemp := 15;
     avgHumidity := 71;
     dataDays := 3 |}.


(** ** The handler *)

Section Handler.

(** Python's [float(s)] on a [str]; [None] stands for [ValueError]. *)
Variable float_of_str : string -> option float.

(** Lines 36-40: [datetime.strptime(date_str, '%Y-%m-%d')], seven days
    back with [timedelta], and both dates printed with
    [strftime('%Y%m%d')] as [(start, end)]; or the exception one of the
    first two raises. *)
Variable request_window : string -> pyexn + (string * string).

(** [float(v)] *)
Definition py_float (v : pyval) : pyexn + float :=
  match v with
  | PNone => inl TypeError
  | PBool b => inr (if b then 1 else 0)%float
  | PInt z =>
      match float_of_int z with
      | Some f => inr f
      | None => inl OverflowError
      end
  | PFloat f => inr f
  | PStr s =>
      match float_of_str s with
      | Some f => inr f
      | None => inl ValueError
      end
  | PList _ | PDict _ => inl TypeError
  end.

(** Lines 143-148: a list stands for its first element. *)
Definition unwrap (v : pyval) : pyval :=
  match v with
  | PList [] => PNone
  | PList (x :: _) => x
  | _ => v
  end.

(** Lines 151-175 and 179-193: [float()] inside a [try] that catches
    [TypeError] and [ValueError] only. *)
Definition filtered (filter : float -> option float) (val : pyval)
    : flow (option float) :=
  match val with
  | PNone => Go None
  | _ =>
      match py_float val with
      | inr v => Go (filter v)
      | inl TypeError | inl ValueError => Go None
      | inl e => Raise e
      end
  end.

Definition temp_valid (temp_val : pyval) : flow (option float) :=
  filtered temp_filter temp_val.

Definition hum_valid (hum_val : pyval) : flow (option float) :=
  filtered hum_filter hum_val.

(** The three lists the loop appends to. *)
Definition series : Type := list string * list float * list float.

(** Line 136: [humidity_data.get(date) if isinstance(humidity_data, dict)
    else None] *)
Definition hum_at (humidity_data : pyval) (date : string) : pyval :=
  match humidity_data with
  | PDict humidity_data => get humidity_data date
  | _ => PNone
  end.

(** Lines 135-202: the body of the loop over [dates]. *)
Definition validate_day (temp_data : gmap string pyval) (humidity_data : pyval)
    (acc : series) (date : string) : flow series :=
  let '(valid_dates, temperatures, humidities) := acc in
  let temp_val := get temp_data date in
  let hum_val := hum_at humidity_data date in
  let temp_val := unwrap temp_val in
  let hum_val := unwrap hum_val in
  temp_valid ← temp_valid temp_val;
  hum_valid ← hum_valid hum_val;
  match temp_valid, hum_valid with
  | Some t, Some h =>
      Go (valid_dates ++ [date], temperatures ++ [t], humidities ++ [h])
  | _, _ => Go acc
  end.

Fixpoint validate_days (temp_data : gmap string pyval) (humidity_data : pyval)
    (dates : list string) (acc : series) : flow series :=
  match dates with
  | [] => Go acc
  | date :: dates =>
      acc ← validate_day temp_data humidity_data acc date;
      validate_days temp_data humidity_data dates acc
  end.

Definition msg_insufficient_history (dates : list string) : list frag :=
  [Lit "データが不足しています（"; Num (length dates);
   Lit "日分）。最低3日間のデータが必要です。取得した日付: "; Strs dates].

(** Lines 108-243, for a temperature series that is a [dict]. *)
Definition reduce_series (temp_data : gmap string pyval) (humidity_data : pyval)
    : flow response :=
  let dates := py_sorted (keys temp_data) in
  if (length dates <? 3)%nat
  then Return (Failure 500 (msg_insufficient_history dates))
  else
    '(valid_dates, temperatures, humidities) ←
      validate_days temp_data humidity_data dates ([], [], []);
    average_reducer valid_dates temperatures humidities.

Definition msg_no_T2M (params : list string) : list frag :=
  [Lit "気温データ(T2M)が取得できませんでした。利用可能なパラメータ: "; Strs params].

Definition msg_no_RH2M (params : list string) : list frag :=
  [Lit "湿度データ(RH2M)が取得できませんでした。利用可能なパラメータ: "; Strs params].

(** Lines 92-118. *)
Definition reduce_params (params : pyval) : flow response :=
  match params with
  | PDict params =>
      let temp_data := get params "T2M" in
      let humidity_data := get params "RH2M" in
      if negb (truthy temp_data) then Return (Failure 500 (msg_no_T2M (keys params)))
      else if negb (truthy humidity_data)
      then Return (Failure 500 (msg_no_RH2M (keys params)))
      else
        match temp_data with
        | PDict temp_data => reduce_series temp_data humidity_data
        | _ =>
            Return (Failure 500
              [Lit "気温データの形式が予想と異なります: "; TypeName (type_of temp_data)])
        end
  | _ => Raise AttributeError
  end.

(** Lines 86-91: ['parameter' not in data.get('properties', {})], the
    message that lists the keys, and [data['properties']['parameter']]. *)
Definition parameter_of (properties : pyval) : flow pyval :=
  match properties with
  | PDict properties =>
      match properties !! "parameter" with
      | Some params => Go params
      | None =>
          Return (Failure 500
            [Lit "パラメータデータが存在しません。properties: "; Strs (keys properties)])
      end
  | PStr s =>
      if bool_decide (is_Some (String.index 0 "parameter" s))
      then Raise TypeError else Raise AttributeError
  | PList l =>
      if existsb (fun v => match v with
                           | PStr s => String.eqb s "parameter"
                           | _ => false
                           end) l
      then Raise TypeError else Raise AttributeError
  | _ => Raise TypeError
  end.

(** Lines 76-243: everything after [data = response.json()]. *)
Definition reduce_payload (data : pyval) : flow response :=
  match data with
  | PDict data =>
      match data !! "properties" with
      | None =>
          Return (Failure 500
            [Lit "データ形式が正しくありません。レスポンス構造: "; Strs (keys data)])
      | Some properties =>
          params ← parameter_of properties;
          reduce_params params
      end
  | _ => Raise AttributeError
  end.

(** Lines 64-74. *)
Definition after_fetch (r : reply) : flow response :=
  match r with
  | GetRaises e => Raise e
  | GetReturns status_code json =>
      if negb (status_code =? 200)%Z
         && (400 <=? status_code)%Z && (status_code <? 600)%Z
      then Raise (HTTPError status_code)
      else
        match json with
        | inl e => Raise e
        | inr data => reduce_payload data
        end
  end.

(** The response to the provider's reply, with the [except] clauses. *)
Definition respond_to (r : reply) : response :=
  handle_exn (after_fetch r).

(** Lines 27-61. Line 31 is [if not lat or not lng or not date_str]: a
    parameter that is [None] is falsy, and so are the float 0.0 and the
    empty string. *)
Definition get_nasa_power_data (q : query) : handler_run :=
  match lat q, lng q, date_str q with
  | Some lat, Some lng, Some date_str =>
      if negb (truthy (PFloat lat)) || negb (truthy (PFloat lng))
         || negb (truthy (PStr date_str))
      then Respond (Failure 400 [Lit "緯度、経度、日付が必要です"])
      else
        match request_window date_str with
        | inl e => Respond (handle_exn (Raise e))
        | inr (start_date_str, end_date_str) =>
            Fetch {| longitude := lng; latitude := lat;
                     start := start_date_str; end_ := end_date_str |}
                  respond_to
        end
  | _, _, _ => Respond (Failure 400 [Lit "緯度、経度、日付が必要です"])
  end.

(** The handler against a provider, with the log of outbound calls. *)
Definition serve (provider : api_url -> reply) (q : query)
    : response * list api_url :=
  match get_nasa_power_data q with
  | Respond r => (r, [])
  | Fetch url k => (k (provider url), [url])
  end.

(** ** Views used to state the properties *)

(** The two series of a payload that has the expected structure:
    [data['properties']['parameter']] with a temperature series that is a
    [dict], and whatever [params.get('RH2M')] returns. *)
Definition payload_series (data : pyval) : option (gmap string pyval * pyval) :=
  match data with
  | PDict data =>
      match data !! "properties" with
      | Some (PDict properties) =>
          match properties !! "parameter" with
          | Some (PDict params) =>
              match params !! "T2M" with
              | Some (PDict temp_data) => Some (temp_data, get params "RH2M")
              | _ => None
              end
          | _ => None
          end
      | _ => None
      end
  | _ => None
  end.

(** The validated pair of a date, when both of its values pass. *)
Definition day_ok (temp_data : gmap string pyval) (humidity_data : pyval)
    (date : string) : option (string * (float * float)) :=
  match temp_valid (unwrap (get temp_data date)),
        hum_valid (unwrap (hum_at humidity_data date)) with
  | Go (Some t), Go (Some h) => Some (date, (t, h))
  | _, _ => None
  end.


(** The tiers of the temperature policy, as intervals of doubles. *)
Definition temp_invalid (t : float) : bool :=
  (t <? -100)%float || (400 <? t)%float || negb (t =? t)%float.

Definition kelvin_scale (t : float) : bool :=
  (200 <=? t)%float && (t <=? 350)%float.

Definition celsius_scale (t : float) : bool :=
  (-80 <=? t)%float && (t <=? 80)%float.

(** The rest of [-100, 400]: [-100, -80), (80, 200) and (350, 400]. *)
Definition residual (t : float) : bool :=
  ((80 <? t)%float && (t <? 200)%float)
  || ((-100 <=? t)%float && (t <? -80)%float)
  || ((350 <? t)%float && (t <=? 400)%float).

(** The residual ranges in the words of the specification:
    (80,200), (-150,-80) and (350,450). *)
Definition residual_spec (t : float) : bool :=
  ((80 <? t)%float && (t <? 200)%float)
  || ((-150 <? t)%float && (t <? -80)%float)
  || ((350 <? t)%float && (t <? 450)%float).

(** Line 31 as a test on the query: a parameter is missing, a coordinate
    is 0.0 or -0.0, or the date is the empty string. *)
Definition rejected (q : query) : bool :=
  match lat q, lng q, date_str q with
  | Some la, Some lo, Some d =>
      (la =? 0)%float || (lo =? 0)%float || String.eqb d ""
  | _, _, _ => true
  end.





(** The digit a character stands for. *)
Definition digit_of (c : Ascii.ascii) : option Z :=
  let n := Z.of_N (Ascii.N_of_ascii c) in
  if (48 <=? n)%Z && (n <=? 57)%Z then Some (n - 48)%Z else None.

(** The number a string of decimal digits reads as. *)
Fixpoint digits_value (s : string) : option Z :=
  match s with
  | EmptyString => Some 0%Z
  | String c s' =>
      d ← digit_of c;
      v ← digits_value s';
      Some (d * 10 ^ Z.of_nat (String.length s') + v)%Z
  end.

(** The number of a date in the format of line 39, [%Y%m%d] with 8
    digits: [10000 * year + 100 * month + day], which orders the dates
    as the calendar does. *)
Definition date_number (date : string) : option Z :=
  if (String.length date =? 8)%nat then digits_value date else None.

(** [a] is a date before the date [b]. *)
Definition date_before (a b : string) : Prop :=
  exists x y, date_number a = Some x /\ date_number b = Some y /\ (x < y)%Z.




(** * Properties *)

(** ** The order of floats *)

Lemma digits2_pos_bound (m : positive) : (Z.pos m < 2 ^ Z.pos (digits2_pos m))%Z.
Proof.
  induction m as [m IH|m IH|]; simpl digits2_pos.
  - rewrite Pos2Z.inj_succ, Z.pow_succ_r by lia. lia.
  - rewrite Pos2Z.inj_succ, Z.pow_succ_r by lia. lia.
  - reflexivity.
Qed.

Lemma valid_finite_bounds (s : bool) (m : positive) (e : Z) :
  valid_binary (S754_finite s m e) = true ->
  (-1074 <= e <= 971 /\ Z.pos m < 2 ^ 53)%Z.
Proof.
  unfold SpecFloat.valid_binary, bounded, canonical_mantissa, fexp, SpecFloat.emin.
  change prec with 53%Z. change emax with 1024%Z.
  rewrite andb_true_iff, Z.eqb_eq, Z.leb_le. intros [Hc He].
  pose proof (digits2_pos_bound m) as Hm.
  assert (Hd : (Z.pos (digits2_pos m) <= 53)%Z) by lia.
  split; [lia|].
  eapply Z.lt_le_trans; [exact Hm|]. apply Z.pow_le_mono_r; lia.
Qed.

Lemma compare_intro (a b : Z) (c : comparison) :
  match c with Eq => a = b | Lt => (a < b)%Z | Gt => (a > b)%Z end ->
  c = (a ?= b)%Z.
Proof.
  destruct c; intros H; symmetry;
    [apply Z.compare_eq_iff|apply Z.compare_lt_iff|apply Z.compare_gt_iff]; lia.
Qed.

(** IEEE comparison of two doubles is the comparison of their codes. *)
Lemma SFcompare_fkey (x y : float) :
  SFcompare (Prim2SF x) (Prim2SF y) =
  match fkey x, fkey y with
  | Some a, Some b => Some (a ?= b)%Z
  | _, _ => None
  end.
Proof.
  unfold fkey.
  pose proof (Prim2SF_valid x) as Hx. pose proof (Prim2SF_valid y) as Hy.
  destruct (Prim2SF x) as [sx|sx| |sx mx ex]; [| | |apply valid_finite_bounds in Hx];
  (destruct (Prim2SF y) as [sy|sy| |sy my ey]; [| | |apply valid_finite_bounds in Hy]);
    try reflexivity;
    cbv zeta; unfold key_inf; change (2 ^ 53)%Z with 9007199254740992%Z in *;
    cbn [SFcompare]; f_equal.
  all: try solve [repeat match goal with b : bool |- _ => destruct b end;
                  apply compare_intro; lia].
  replace (Pos.compare_cont Eq mx my) with (Pos.compare mx my) by reflexivity.
  destruct sx, sy; try (apply compare_intro; lia);
    destruct (Z.compare_spec ex ey) as [->|H|H]; try (apply compare_intro; lia);
    destruct (Pos.compare_spec mx my) as [H|H|H];
    apply compare_intro; cbn [CompOpp]; lia.
Qed.

Lemma ltb_fkey (x y : float) :
  (x <? y)%float =
  match fkey x, fkey y with Some a, Some b => (a <? b)%Z | _, _ => false end.
Proof.
  rewrite FloatAxioms.ltb_spec. unfold SFltb. rewrite SFcompare_fkey.
  destruct (fkey x), (fkey y); reflexivity.
Qed.

Lemma leb_fkey (x y : float) :
  (x <=? y)%float =
  match fkey x, fkey y with Some a, Some b => (a <=? b)%Z | _, _ => false end.
Proof.
  rewrite FloatAxioms.leb_spec. unfold SFleb. rewrite SFcompare_fkey.
  destruct (fkey x), (fkey y); reflexivity.
Qed.

Lemma eqb_fkey (x y : float) :
  (x =? y)%float =
  match fkey x, fkey y with Some a, Some b => (a =? b)%Z | _, _ => false end.
Proof.
  rewrite FloatAxioms.eqb_spec. unfold SFeqb. rewrite SFcompare_fkey.
  destruct (fkey x) as [a|], (fkey y) as [b|]; try reflexivity.
  destruct (Z.eqb_spec a b) as [->|Hne].
  - now rewrite Z.compare_refl.
  - destruct (Z.compare_spec a b); [lia|reflexivity..].
Qed.

(** Float comparisons against literals, decided in [Z]. *)
Ltac fkey_consts :=
  repeat match goal with
  | |- context [fkey ?c] =>
      tryif is_var c then fail else
        let v := eval vm_compute in (fkey c) in change (fkey c) with v
  end.

Ltac float_order t :=
  rewrite ?ltb_fkey, ?leb_fkey, ?eqb_fkey; fkey_consts;
  destruct (fkey t) as [?k|]; cbn beta iota;
  [ repeat match goal with
      | |- context [(?a <? ?b)%Z] => destruct (Z.ltb_spec a b); try lia
      | |- context [(?a <=? ?b)%Z] => destruct (Z.leb_spec a b); try lia
      | |- context [(?a =? ?b)%Z] => destruct (Z.eqb_spec a b); try lia
      end; cbn [andb orb negb]; try reflexivity; try lia; try easy
  | cbn [andb orb negb]; try reflexivity; try easy ].

(** [round(x, 2)] on values whose rounding Python documents or shows:
    the binary value decides, ties go to the even digit, the sign of a
    zero is kept. *)
Example py_round2_examples :
  py_round2 2.675 = 2.67%float /\ py_round2 0.125 = 0.12%float
  /\ py_round2 0.375 = 0.38%float /\ py_round2 1.005 = 1%float
  /\ py_round2 (-0.001) = (-0)%float /\ py_round2 26.850000000000023 = 26.85%float
  /\ py_round2 65.650000000000006 = 65.65%float /\ py_round2 1e22 = 1e22%float.
Proof. repeat split; vm_compute; reflexivity. Qed.

Example float_of_int_examples :
  float_of_int 291 = Some 291%float
  /\ float_of_int (2 ^ 53 + 1) = Some 9007199254740992%float
  /\ float_of_int (10 ^ 400) = None.
Proof. repeat split; vm_compute; reflexivity. Qed.

(** ** The validity filters *)

(** The temperature filter accepts exactly the doubles of [-100, 400]. *)
Lemma temp_filter_range (t : float) :
  temp_filter t =
  if (-100 <=? t)%float && (t <=? 400)%float then Some t else None.
Proof. unfold temp_filter. float_order t. Qed.

(** C1 (amended): every double falls in one of four tiers. It is
    invalid when it is below -100, above 400 or NaN (so in particular
    outside [-150, 450]); it is accepted as Kelvin-scale in [200, 350], as
    Celsius-scale in [-80, 80], and as a last resort in the rest of
    [-100, 400], that is [-100, -80), (80, 200) and (350, 400]. 200.0 is
    valid, 199.9 is accepted by the last tier, -999 is rejected. *)
Theorem temp_filter_tiers (t : float) :
  temp_filter t =
    (if kelvin_scale t || celsius_scale t || residual t then Some t else None)
  /\ temp_invalid t = negb (kelvin_scale t || celsius_scale t || residual t)
  /\ (((t <? -150)%float || (450 <? t)%float) = true -> temp_filter t = None)
  /\ (kelvin_scale 200 = true /\ temp_filter 200 = Some 200%float)
  /\ (residual 199.9 = true /\ temp_filter 199.9 = Some 199.9%float)
  /\ temp_filter (-999) = None.
Proof.
  unfold temp_filter, temp_invalid, kelvin_scale, celsius_scale, residual.
  split; [|split; [|split; [|repeat split; vm_compute; reflexivity]]].
  - float_order t.
  - float_order t.
  - float_order t.
Qed.

(** C1, as stated, fails: -120 and 420 lie in the residual ranges of the
    specification and the filter rejects them. *)
Lemma temp_filter_rejects_spec_residual :
  residual_spec (-120) = true /\ temp_filter (-120) = None
  /\ residual_spec 420 = true /\ temp_filter 420 = None.
Proof. repeat split; vm_compute; reflexivity. Qed.

(** C6: a humidity is valid if and only if it lies in [0, 100] (a NaN
    satisfies no comparison, so it is rejected, like the infinities);
    100.0 is valid, 100.1 and -999 are not. *)
Theorem hum_filter_range (h : float) :
  hum_filter h =
    (if (0 <=? h)%float && (h <=? 100)%float then Some h else None)
  /\ (hum_filter h = Some h <-> ((0 <=? h)%float && (h <=? 100)%float) = true)
  /\ (((0 <=? h)%float && (h <=? 100)%float) = true -> (h =? h)%float = true)
  /\ hum_filter 100 = Some 100%float
  /\ hum_filter 100.1 = None
  /\ hum_filter (-999) = None
  /\ hum_filter nan = None
  /\ hum_filter infinity = None
  /\ hum_filter neg_infinity = None.
Proof.
  assert (E : hum_filter h =
    (if (0 <=? h)%float && (h <=? 100)%float then Some h else None)).
  { unfold hum_filter. float_order h. }
  split; [exact E|]. split; [|split; [|repeat split; vm_compute; reflexivity]].
  - rewrite E. destruct ((0 <=? h)%float && (h <=? 100)%float); split; easy.
  - float_order h.
Qed.

(** ** Sorted keys *)

Lemma keys_NoDup (d : gmap string pyval) : NoDup (keys d).
Proof. apply NoDup_fst_map_to_list. Qed.

Lemma elem_of_keys (d : gmap string pyval) (k : string) :
  k ∈ keys d <-> is_Some (d !! k).
Proof.
  unfold keys. rewrite list_elem_of_fmap. split.
  - intros [[k' v] [-> H]]. apply elem_of_map_to_list in H. eauto.
  - intros [v H]. exists (k, v). split; [done|]. by apply elem_of_map_to_list.
Qed.

Lemma length_keys (d : gmap string pyval) : length (keys d) = size d.
Proof. unfold keys. by rewrite length_fmap, length_map_to_list. Qed.

Lemma py_sorted_perm (l : list string) : py_sorted l ≡ₚ l.
Proof. apply merge_sort_Permutation. Qed.

Lemma py_sorted_sorted (l : list string) : StronglySorted String.le (py_sorted l).
Proof. apply StronglySorted_merge_sort; apply _. Qed.

Lemma py_sorted_NoDup (l : list string) : NoDup l -> NoDup (py_sorted l).
Proof. intros H. by rewrite py_sorted_perm. Qed.

Lemma length_py_sorted (l : list string) : length (py_sorted l) = length l.
Proof. by rewrite py_sorted_perm. Qed.

Lemma elem_of_py_sorted (l : list string) (x : string) : x ∈ py_sorted l <-> x ∈ l.
Proof. by rewrite py_sorted_perm. Qed.

Lemma StronglySorted_sublist {A} (R : relation A) (l1 l2 : list A) :
  l1 `sublist_of` l2 -> StronglySorted R l2 -> StronglySorted R l1.
Proof.
  induction 1 as [|x l1 l2 Hs IH|x l1 l2 Hs IH]; intros Hl.
  - constructor.
  - apply StronglySorted_cons in Hl as [Hx Hl]. apply StronglySorted_cons.
    split; [|auto]. eapply Forall_forall. intros y Hy.
    eapply Forall_forall in Hx; [exact Hx|]. eapply elem_of_sublist; eauto.
  - apply StronglySorted_cons in Hl as [_ Hl]. auto.
Qed.



Lemma last5_short {A} (l : list A) : length l <= 5 -> last5 l = l.
Proof. intros H. unfold last5. replace (length l - 5) with 0 by lia. done. Qed.

Lemma length_last5 {A} (l : list A) : length (last5 l) = Nat.min (length l) 5.
Proof. unfold last5. rewrite length_drop. lia. Qed.

(** ** The loop over the dates *)

Lemma filtered_no_return (filter : float -> option float) (v : pyval) (r : response) :
  filtered filter v <> Return r.
Proof.
  unfold filtered. destruct v; try discriminate;
    match goal with |- context [py_float ?v] => destruct (py_float v) as [[]|] end;
    discriminate.
Qed.

(** What the filter of a raw value lets through is [float()] of that value. *)
Lemma filtered_Some (filter : float -> option float) (v : pyval) (x : float) :
  filtered filter v = Go (Some x) ->
  exists f, py_float v = inr f /\ filter f = Some x.
Proof.
  unfold filtered. destruct v; try discriminate;
    match goal with |- context [py_float ?v] => destruct (py_float v) as [[]|fv] end;
    try discriminate; intros [= H]; eauto.
Qed.

Lemma temp_filter_Some (tv x : float) : temp_filter tv = Some x -> x = tv.
Proof. rewrite temp_filter_range. destruct (_ && _); congruence. Qed.

Lemma hum_filter_Some (hv x : float) : hum_filter hv = Some x -> x = hv.
Proof.
  unfold hum_filter. destruct (negb _); [discriminate|].
  destruct (_ || _); congruence.
Qed.

Lemma day_ok_date (temp_data : gmap string pyval) (humidity_data : pyval)
    (date d : string) (t h : float) :
  day_ok temp_data humidity_data date = Some (d, (t, h)) -> d = date.
Proof.
  unfold day_ok.
  destruct (temp_valid _) as [[?|]| |]; try discriminate;
  destruct (hum_valid _) as [[?|]| |]; try discriminate.
  congruence.
Qed.

(** A validated day carries [float()] of the raw values of its date. *)
Lemma day_ok_raw (temp_data : gmap string pyval) (humidity_data : pyval)
    (date d : string) (t h : float) :
  day_ok temp_data humidity_data date = Some (d, (t, h)) ->
  py_float (unwrap (get temp_data date)) = inr t /\ temp_filter t = Some t /\
  py_float (unwrap (hum_at humidity_data date)) = inr h /\ hum_filter h = Some h.
Proof.
  unfold day_ok, temp_valid, hum_valid.
  destruct (filtered temp_filter _) as [[t'|]| |] eqn:Ht; try discriminate.
  destruct (filtered hum_filter _) as [[h'|]| |] eqn:Hh; try discriminate.
  intros [= _ -> ->].
  apply filtered_Some in Ht as (tv & Ht & Htv).
  apply filtered_Some in Hh as (hv & Hh & Hhv).
  pose proof (temp_filter_Some _ _ Htv) as ->.
  pose proof (hum_filter_Some _ _ Hhv) as ->.
  done.
Qed.

Lemma validate_day_Go (temp_data : gmap string pyval) (humidity_data : pyval)
    (vd : list string) (ts hs : list float) (date : string) (acc : series) :
  validate_day temp_data humidity_data (vd, ts, hs) date = Go acc ->
  acc = match day_ok temp_data humidity_data date with
        | Some (d, (t, h)) => (vd ++ [d], ts ++ [t], hs ++ [h])
        | None => (vd, ts, hs)
        end.
Proof.
  unfold validate_day, day_ok.
  destruct (temp_valid _) as [[t|]| |]; cbn; try discriminate;
    (destruct (hum_valid _) as [[h|]| |]; cbn; try discriminate);
    congruence.
Qed.

Lemma validate_day_no_return (temp_data : gmap string pyval)
    (humidity_data : pyval) (acc : series) (date : string) (r : response) :
  validate_day temp_data humidity_data acc date <> Return r.
Proof.
  destruct acc as [[vd ts] hs]. unfold validate_day, temp_valid, hum_valid.
  destruct (filtered temp_filter _) as [[t|]| |] eqn:Ht; cbn;
    try discriminate; try (by apply filtered_no_return in Ht);
    (destruct (filtered hum_filter _) as [[h|]| |] eqn:Hh; cbn;
     try discriminate; try (by apply filtered_no_return in Hh)).
Qed.

Lemma validate_days_no_return (temp_data : gmap string pyval)
    (humidity_data : pyval) (dates : list string) (acc : series) (r : response) :
  validate_days temp_data humidity_data dates acc <> Return r.
Proof.
  revert acc. induction dates as [|date dates IH]; intros acc; [discriminate|].
  cbn. destruct (validate_day _ _ acc date) eqn:Hd; cbn.
  - apply IH.
  - by apply validate_day_no_return in Hd.
  - discriminate.
Qed.

(** The loop keeps, in order, the dates whose two values pass. *)
Lemma validate_days_spec (temp_data : gmap string pyval) (humidity_data : pyval)
    (dates vd : list string) (ts hs : list float)
    (vd' : list string) (ts' hs' : list float) :
  validate_days temp_data humidity_data dates (vd, ts, hs) = Go (vd', ts', hs') ->
  let days := omap (day_ok temp_data humidity_data) dates in
  vd' = vd ++ days.*1 /\ ts' = ts ++ days.*2.*1 /\ hs' = hs ++ days.*2.*2.
Proof.
  revert vd ts hs.
  induction dates as [|date dates IH]; intros vd ts hs; cbn [validate_days omap].
  - intros [= -> -> ->]. by rewrite !app_nil_r.
  - destruct (validate_day temp_data humidity_data (vd, ts, hs) date)
      as [acc| |] eqn:Hd; cbn [mbind flow_bind]; try discriminate.
    apply validate_day_Go in Hd. intros H. cbn [omap list_omap].
    destruct (day_ok temp_data humidity_data date) as [[d [t h]]|]; subst acc.
    + apply IH in H as (-> & -> & ->). cbn. by rewrite <- !app_assoc.
    + by apply IH in H.
Qed.

Lemma day_ok_dates_sublist (temp_data : gmap string pyval)
    (humidity_data : pyval) (dates : list string) :
  (omap (day_ok temp_data humidity_data) dates).*1 `sublist_of` dates.
Proof.
  induction dates as [|date dates IH]; cbn; [constructor|].
  destruct (day_ok _ _ date) as [[d [t h]]|] eqn:Hd; cbn.
  - apply day_ok_date in Hd as ->. by constructor.
  - by constructor.
Qed.

Lemma day_ok_Forall2 (temp_data : gmap string pyval) (humidity_data : pyval)
    (dates : list string) :
  let days := omap (day_ok temp_data humidity_data) dates in
  Forall2 (fun d t => py_float (unwrap (get temp_data d)) = inr t
                      /\ temp_filter t = Some t) days.*1 days.*2.*1
  /\ Forall2 (fun d h => py_float (unwrap (hum_at humidity_data d)) = inr h
                         /\ hum_filter h = Some h) days.*1 days.*2.*2.
Proof.
  induction dates as [|date dates [IHt IHh]]; cbn; [split; constructor|].
  destruct (day_ok _ _ date) as [[d [t h]]|] eqn:Hd; cbn; [|done].
  pose proof (day_ok_date _ _ _ _ _ _ Hd) as ->.
  apply day_ok_raw in Hd as (Ht & Htv & Hh & Hhv).
  split; constructor; done.
Qed.

(** What the loop hands to the reducer: three lists of one length, the
    dates in the order of [dates], each value [float()] of the raw value
    of its date. *)
Lemma validated_series (temp_data : gmap string pyval) (humidity_data : pyval)
    (dates vd : list string) (ts hs : list float) :
  validate_days temp_data humidity_data dates ([], [], []) = Go (vd, ts, hs) ->
  length ts = length vd /\ length hs = length vd
  /\ vd `sublist_of` dates
  /\ vd = (omap (day_ok temp_data humidity_data) dates).*1
  /\ Forall2 (fun d t => py_float (unwrap (get temp_data d)) = inr t
                         /\ temp_filter t = Some t) vd ts
  /\ Forall2 (fun d h => py_float (unwrap (hum_at humidity_data d)) = inr h
                         /\ hum_filter h = Some h) vd hs.
Proof.
  intros H. apply validate_days_spec in H as (-> & -> & ->). cbn.
  rewrite !length_fmap. repeat split.
  - apply day_ok_dates_sublist.
  - apply day_ok_Forall2.
  - apply day_ok_Forall2.
Qed.

(** ** The reducer *)

Lemma py_mean_Go (xs : list float) :
  xs <> [] -> py_mean xs = Go (py_sum xs / float_of_len (length xs))%float.
Proof. by destruct xs. Qed.

Lemma average_reducer_short (vd : list string) (ts hs : list float) :
  length ts < 3 ->
  average_reducer vd ts hs =
  Return (Failure 500 (msg_insufficient_valid (length ts) vd)).
Proof.
  intros H. unfold average_reducer.
  destruct (Nat.ltb_spec (length ts) 5); [|lia].
  destruct (Nat.leb_spec 3 (length ts)); [lia|]. done.
Qed.

Lemma average_reducer_enough (vd : list string) (ts hs : list float) :
  3 <= length ts -> length hs = length ts -> length vd = length ts ->
  average_reducer vd ts hs =
  Return (Success {|
    dates := last5 vd;
    temperatures := last5 ts;
    humidities := last5 hs;
    avgTemp := py_round2 (temp_celsius
                 (py_sum (last5 ts) / float_of_len (length (last5 ts))));
    avgHumidity := py_round2
                 (py_sum (last5 hs) / float_of_len (length (last5 hs)));
    dataDays := length (last5 vd) |}).
Proof.
  intros H3 Hh Hv. unfold average_reducer.
  replace ((length ts <? 5)%nat && negb (3 <=? length ts)%nat) with false.
  2:{ destruct (Nat.leb_spec 3 (length ts)); [|lia]. by rewrite andb_false_r. }
  assert (E : (if (5 <? length ts)%nat
               then (last5 ts, last5 hs, last5 vd) else (ts, hs, vd))
              = (last5 ts, last5 hs, last5 vd)).
  { destruct (Nat.ltb_spec 5 (length ts)); [done|].
    by rewrite !last5_short by lia. }
  rewrite E.
  rewrite !py_mean_Go; [done|..];
    intros Hnil; apply (f_equal length) in Hnil;
    rewrite length_last5 in Hnil; cbn in Hnil; lia.
Qed.

(** C4: the reducer fails, with the message that carries the number of
    valid days and their dates, if and only if it is given fewer than 3
    validated days; given 3, 4 or 5 it succeeds and uses all of them. *)
Theorem insufficient_valid_data (temp_data : gmap string pyval)
    (humidity_data : pyval) (ds vd : list string) (ts hs : list float) :
  validate_days temp_data humidity_data ds ([], [], []) = Go (vd, ts, hs) ->
  (length vd < 3 <->
     average_reducer vd ts hs =
     Return (Failure 500 (msg_insufficient_valid (length vd) vd)))
  /\ (length vd < 3 <-> forall s, average_reducer vd ts hs <> Return (Success s))
  /\ (Num (length vd) ∈ msg_insufficient_valid (length vd) vd
      /\ Strs vd ∈ msg_insufficient_valid (length vd) vd)
  /\ (3 <= length vd <= 5 ->
      exists s, average_reducer vd ts hs = Return (Success s)
                /\ dataDays s = length vd /\ dates s = vd
                /\ temperatures s = ts /\ humidities s = hs).
Proof.
  intros H. apply validated_series in H as (Ht & Hh & _).
  assert (Hshort : length vd < 3 ->
    average_reducer vd ts hs =
    Return (Failure 500 (msg_insufficient_valid (length vd) vd))).
  { intros Hlt. rewrite <- Ht. apply average_reducer_short. lia. }
  assert (Hok : 3 <= length vd -> exists s,
    average_reducer vd ts hs = Return (Success s)
    /\ dataDays s = length (last5 vd) /\ dates s = last5 vd
    /\ temperatures s = last5 ts /\ humidities s = last5 hs).
  { intros Hge. eexists. split; [apply average_reducer_enough; lia|done]. }
  split; [|split; [|split]].
  - split; [exact Hshort|]. intros E.
    destruct (Nat.lt_ge_cases (length vd) 3) as [|Hge]; [done|].
    destruct (Hok Hge) as (s & Hs & _). congruence.
  - split.
    + intros Hlt s Hs. rewrite (Hshort Hlt) in Hs. discriminate.
    + intros Hno. destruct (Nat.lt_ge_cases (length vd) 3) as [|Hge]; [done|].
      destruct (Hok Hge) as (s & Hs & _). by destruct (Hno s).
  - unfold msg_insufficient_valid. split; set_solver.
  - intros [Hge Hle]. destruct (Hok Hge) as (s & Hs & Hn & Hd & Hts & Hhs).
    exists s. by rewrite Hn, Hd, Hts, Hhs, !last5_short by lia.
Qed.


(** ** From the payload to the response *)

(** The summary of a validated series. *)
Lemma reduce_series_enough (temp_data : gmap string pyval)
    (humidity_data : pyval) (vd : list string) (ts hs : list float) :
  validate_days temp_data humidity_data (py_sorted (keys temp_data)) ([], [], [])
    = Go (vd, ts, hs) ->
  3 <= length vd ->
  reduce_series temp_data humidity_data = average_reducer vd ts hs.
Proof.
  intros H Hge. pose proof (validated_series _ _ _ _ _ _ H) as (_ & _ & Hs & _).
  apply sublist_length in Hs. unfold reduce_series.
  destruct (Nat.ltb_spec (length (py_sorted (keys temp_data))) 3); [lia|].
  by rewrite H.
Qed.

Lemma reduce_series_few_dates (temp_data : gmap string pyval)
    (humidity_data : pyval) :
  size temp_data < 3 ->
  reduce_series temp_data humidity_data =
  Return (Failure 500 (msg_insufficient_history (py_sorted (keys temp_data)))).
Proof.
  intros H. unfold reduce_series.
  rewrite length_py_sorted, length_keys.
  by destruct (Nat.ltb_spec (size temp_data) 3); [|lia].
Qed.

Lemma payload_series_reduce (data : pyval) (temp_data : gmap string pyval)
    (humidity_data : pyval) :
  payload_series data = Some (temp_data, humidity_data) ->
  temp_data <> ∅ -> truthy humidity_data = true ->
  reduce_payload data = reduce_series temp_data humidity_data.
Proof.
  unfold payload_series. intros H Hne Hh.
  destruct data as [| | | | | |d]; try discriminate.
  destruct (d !! "properties") as [[| | | | | |props]|] eqn:Hprops;
    try discriminate.
  destruct (props !! "parameter") as [[| | | | | |params]|] eqn:Hparams;
    try discriminate.
  destruct (params !! "T2M") as [[| | | | | |t2m]|] eqn:Ht2m; try discriminate.
  injection H as -> <-.
  cbn [reduce_payload]. rewrite Hprops. cbn [parameter_of]. rewrite Hparams.
  cbn [mbind flow_bind reduce_params].
  assert (Ht : get params "T2M" = PDict temp_data) by (unfold get; by rewrite Ht2m).
  rewrite Ht, Hh. cbn. by rewrite bool_decide_eq_false_2.
Qed.

(** A humidity series from which some date got a value is not empty. *)
Lemma hum_at_truthy (humidity_data : pyval) (date : string) (h : float) :
  py_float (unwrap (hum_at humidity_data date)) = inr h ->
  truthy humidity_data = true.
Proof.
  destruct humidity_data as [| | | | | |d]; cbn; try discriminate.
  unfold get. destruct (d !! date) as [v|] eqn:Hv; cbn; [|discriminate].
  intros _. rewrite bool_decide_eq_false_2; [done|].
  intros ->. by rewrite lookup_empty in Hv.
Qed.

Lemma validated_truthy (temp_data : gmap string pyval) (humidity_data : pyval)
    (vd : list string) (ts hs : list float) :
  validate_days temp_data humidity_data (py_sorted (keys temp_data)) ([], [], [])
    = Go (vd, ts, hs) ->
  0 < length vd ->
  temp_data <> ∅ /\ truthy humidity_data = true.
Proof.
  intros H Hpos.
  apply validated_series in H as (_ & Hh & Hs & _ & _ & Hhum). split.
  - intros ->. apply sublist_length in Hs.
    rewrite length_py_sorted, length_keys, map_size_empty in Hs. lia.
  - destruct Hhum as [|d h vd hs [Hf _] _]; [cbn in Hpos; lia|].
    by eapply hum_at_truthy.
Qed.

(** The response to a payload with at least 3 validated days. *)
Lemma respond_to_valid (status_code : Z) (data : pyval)
    (temp_data : gmap string pyval) (humidity_data : pyval)
    (vd : list string) (ts hs : list float) :
  (status_code = 200 \/ ~ (400 <= status_code < 600))%Z ->
  payload_series data = Some (temp_data, humidity_data) ->
  validate_days temp_data humidity_data (py_sorted (keys temp_data)) ([], [], [])
    = Go (vd, ts, hs) ->
  3 <= length vd ->
  respond_to (GetReturns status_code (inr data)) =
  Success {|
    dates := last5 vd;
    temperatures := last5 ts;
    humidities := last5 hs;
    avgTemp := py_round2 (temp_celsius
                 (py_sum (last5 ts) / float_of_len (length (last5 ts))));
    avgHumidity := py_round2
                 (py_sum (last5 hs) / float_of_len (length (last5 hs)));
    dataDays := length (last5 vd) |}.
Proof.
  intros Hst Hp Hv Hge.
  destruct (validated_truthy _ _ _ _ _ Hv) as [Hne Hh]; [lia|].
  pose proof (validated_series _ _ _ _ _ _ Hv) as (Ht & Hhs & _).
  unfold respond_to, after_fetch.
  replace (negb (status_code =? 200)%Z && (400 <=? status_code)%Z
           && (status_code <? 600)%Z) with false.
  2:{ symmetry. destruct (Z.eqb_spec status_code 200); [done|]. cbn.
      destruct (Z.leb_spec 400 status_code); [|done].
      destruct (Z.ltb_spec status_code 600); [lia|done]. }
  rewrite (payload_series_reduce _ _ _ Hp Hne Hh).
  rewrite (reduce_series_enough _ _ _ _ _ Hv Hge).
  rewrite average_reducer_enough by lia. done.
Qed.

Lemma handle_exn_Raise (e : pyexn) :
  exists msg, handle_exn (Raise e) = Failure 500 msg.
Proof. cbn. destruct (is_request_exception e); eauto. Qed.

Lemma reduce_series_cases (temp_data : gmap string pyval) (humidity_data : pyval) :
  (size temp_data < 3
   /\ reduce_series temp_data humidity_data =
      Return (Failure 500 (msg_insufficient_history (py_sorted (keys temp_data)))))
  \/ (3 <= size temp_data
      /\ exists e, validate_days temp_data humidity_data
                     (py_sorted (keys temp_data)) ([], [], []) = Raise e
                   /\ reduce_series temp_data humidity_data = Raise e)
  \/ (3 <= size temp_data
      /\ exists vd ts hs,
           validate_days temp_data humidity_data
             (py_sorted (keys temp_data)) ([], [], []) = Go (vd, ts, hs)
           /\ reduce_series temp_data humidity_data = average_reducer vd ts hs).
Proof.
  destruct (Nat.lt_ge_cases (size temp_data) 3) as [Hlt|Hge].
  { left. split; [done|]. by apply reduce_series_few_dates. }
  right. unfold reduce_series. rewrite length_py_sorted, length_keys.
  destruct (Nat.ltb_spec (size temp_data) 3); [lia|].
  destruct (validate_days _ _ _ _) as [[[vd ts] hs]|r|e] eqn:Hv.
  - right. split; [done|]. by exists vd, ts, hs.
  - by apply validate_days_no_return in Hv.
  - left. split; [done|]. by exists e.
Qed.

(** Every outcome of the pipeline on a payload: a failure with status 500
    (as a returned error or through an [except] clause), or the summary of
    at least 3 validated days. *)
Lemma reduce_payload_cases (data : pyval) :
  (exists msg, handle_exn (reduce_payload data) = Failure 500 msg)
  \/ exists temp_data humidity_data vd ts hs,
       payload_series data = Some (temp_data, humidity_data)
       /\ validate_days temp_data humidity_data
            (py_sorted (keys temp_data)) ([], [], []) = Go (vd, ts, hs)
       /\ 3 <= length vd.
Proof.
  unfold reduce_payload, payload_series.
  destruct data as [| | | | | |d]; try solve [left; apply handle_exn_Raise].
  destruct (d !! "properties") as [properties|]; [|left; cbn; eauto].
  destruct properties as [| | | |s|l|props];
    try solve [left; cbn; repeat case_match; eauto].
  cbn [parameter_of].
  destruct (props !! "parameter") as [params|]; [|left; cbn; eauto].
  cbn [mbind flow_bind].
  destruct params as [| | | | | |params]; try solve [left; apply handle_exn_Raise].
  cbn [reduce_params].
  destruct (truthy (get params "T2M")) eqn:Ht; [|left; cbn; eauto].
  destruct (truthy (get params "RH2M")) eqn:Hh; [|left; cbn; eauto].
  cbn [negb].
  assert (HT : get params "T2M" = default PNone (params !! "T2M")) by done.
  rewrite HT in Ht |- *. clear HT.
  destruct (params !! "T2M") as [[| | | | | |temp_data]|];
    try solve [left; cbn; eauto].
  cbn [default from_option id].
  destruct (reduce_series_cases temp_data (get params "RH2M"))
    as [[_ ->]|[(_ & e & _ & ->)|(_ & vd & ts & hs & Hv & ->)]].
  - left. cbn. eauto.
  - left. apply handle_exn_Raise.
  - pose proof (validated_series _ _ _ _ _ _ Hv) as (Hts & Hhs & _).
    destruct (Nat.lt_ge_cases (length vd) 3) as [Hlt|Hge].
    + left. rewrite average_reducer_short by lia. cbn. eauto.
    + right. exists temp_data, (get params "RH2M"), vd, ts, hs. done.
Qed.

Lemma respond_to_cases (r : reply) :
  (exists msg, respond_to r = Failure 500 msg)
  \/ exists status_code data temp_data humidity_data vd ts hs,
       r = GetReturns status_code (inr data)
       /\ (status_code = 200 \/ ~ (400 <= status_code < 600))%Z
       /\ payload_series data = Some (temp_data, humidity_data)
       /\ validate_days temp_data humidity_data
            (py_sorted (keys temp_data)) ([], [], []) = Go (vd, ts, hs)
       /\ 3 <= length vd.
Proof.
  unfold respond_to, after_fetch.
  destruct r as [e|status_code [e|data]]; try (left; apply handle_exn_Raise).
  - left. case_match; apply handle_exn_Raise.
  - destruct (negb _ && _ && _) eqn:Hst; [left; apply handle_exn_Raise|].
    destruct (reduce_payload_cases data)
      as [?|(temp_data & humidity_data & vd & ts & hs & ? & ? & ?)]; [by left|].
    right. exists status_code, data, temp_data, humidity_data, vd, ts, hs.
    repeat split; try done.
    destruct (Z.eqb_spec status_code 200); [by left|right]. cbn in Hst.
    apply andb_false_iff in Hst as [Hst|Hst]; [apply Z.leb_gt in Hst|apply Z.ltb_ge in Hst]; lia.
Qed.

(** ** The handler *)

Lemma respond_to_not_400 (r : reply) (msg : list frag) :
  respond_to r <> Failure 400 msg.
Proof.
  destruct (respond_to_cases r)
    as [[m ->]|(st & data & temp_data & humidity_data & vd & ts & hs
                & -> & Hst & Hp & Hv & Hge)]; [discriminate|].
  by rewrite (respond_to_valid _ _ _ _ _ _ _ Hst Hp Hv Hge).
Qed.

(** The provider is contacted at most once, with [respond_to] as the rest
    of the run. *)
Lemma fetch_inv (q : query) (url : api_url) (k : reply -> response) :
  get_nasa_power_data q = Fetch url k ->
  k = respond_to
  /\ exists la lo d start_date_str end_date_str,
       lat q = Some la /\ lng q = Some lo /\ date_str q = Some d
       /\ truthy (PFloat la) = true /\ truthy (PFloat lo) = true
       /\ request_window d = inr (start_date_str, end_date_str)
       /\ url = {| longitude := lo; latitude := la;
                   start := start_date_str; end_ := end_date_str |}.
Proof.
  unfold get_nasa_power_data.
  destruct (lat q) as [la|], (lng q) as [lo|], (date_str q) as [d|];
    try discriminate.
  destruct (truthy (PFloat la)) eqn:Hla, (truthy (PFloat lo)) eqn:Hlo;
    try discriminate.
  destruct (negb (truthy (PStr d))); try discriminate. cbn [negb orb].
  destruct (request_window d) as [e|[s e]] eqn:Hw; try discriminate.
  intros [= <- <-]. split; [done|]. by exists la, lo, d, s, e.
Qed.



(** C7 (amended): for every payload with the expected structure, a
    temperature series that is not empty and a humidity series that is
    present and not empty, fewer than 3 dates in the temperature series
    (so 1 or 2) make the handler fail with HTTP 500 and the message that
    carries the number of raw dates and the dates themselves; no value of
    either series matters. *)
Theorem insufficient_history (data : pyval) (temp_data : gmap string pyval)
    (humidity_data : pyval) :
  payload_series data = Some (temp_data, humidity_data) ->
  truthy humidity_data = true ->
  0 < size temp_data < 3 ->
  let raw_dates := py_sorted (keys temp_data) in
  respond_to (GetReturns 200 (inr data)) =
    Failure 500 (msg_insufficient_history raw_dates)
  /\ Num (size temp_data) ∈ msg_insufficient_history raw_dates
  /\ Strs raw_dates ∈ msg_insufficient_history raw_dates
  /\ (forall date, date ∈ raw_dates <-> is_Some (temp_data !! date)).
Proof.
  intros Hp Hh [Hpos Hlt] raw_dates.
  assert (Hne : temp_data <> ∅).
  { intros ->. rewrite map_size_empty in Hpos. lia. }
  split; [|split; [|split]].
  - unfold respond_to, after_fetch. cbn [Z.eqb negb andb Pos.eqb].
    rewrite (payload_series_reduce _ _ _ Hp Hne Hh).
    by rewrite reduce_series_few_dates.
  - unfold msg_insufficient_history, raw_dates.
    rewrite length_py_sorted, length_keys. set_solver.
  - unfold msg_insufficient_history. set_solver.
  - intros date. unfold raw_dates.
    by rewrite elem_of_py_sorted, elem_of_keys.
Qed.

Lemma serve_Success (provider : api_url -> reply) (q : query) (s : summary) :
  (serve provider q).1 = Success s ->
  exists url, (serve provider q).2 = [url] /\ respond_to (provider url) = Success s.
Proof.
  unfold serve. destruct (get_nasa_power_data q) as [r|url k] eqn:Hq.
  - unfold get_nasa_power_data in Hq. cbn. intros ->.
    repeat case_match; simplify_eq.
    match goal with
    | H : (if is_request_exception ?p then _ else _) = _ |- _ =>
        by destruct (is_request_exception p)
    end.
  - apply fetch_inv in Hq as [-> _]. cbn. eauto.
Qed.

Lemma Forall2_last5 {A B} (P : A -> B -> Prop) (l : list A) (k : list B) :
  Forall2 P l k -> Forall2 P (last5 l) (last5 k).
Proof.
  intros H. unfold last5. rewrite <- (Forall2_length _ _ _ H).
  by apply Forall2_drop.
Qed.

(** C8: on every successful response the dates, temperatures and
    humidities of the summary have the same length, which is [dataDays]
    and lies between 3 and 5; the temperatures (and humidities) reported
    are [float()] of the provider's raw values for the reported dates,
    with no conversion applied. *)
Theorem summary_invariant (provider : api_url -> reply) (q : query) (s : summary) :
  (serve provider q).1 = Success s ->
  length (dates s) = dataDays s
  /\ length (temperatures s) = dataDays s
  /\ length (humidities s) = dataDays s
  /\ 3 <= dataDays s <= 5
  /\ exists url status_code data temp_data humidity_data,
       (serve provider q).2 = [url]
       /\ provider url = GetReturns status_code (inr data)
       /\ payload_series data = Some (temp_data, humidity_data)
       /\ Forall2 (fun date t => py_float (unwrap (get temp_data date)) = inr t)
            (dates s) (temperatures s)
       /\ Forall2 (fun date h =>
                     py_float (unwrap (hum_at humidity_data date)) = inr h)
            (dates s) (humidities s).
Proof.
  intros H. apply serve_Success in H as (url & Hcalls & Hs).
  destruct (respond_to_cases (provider url))
    as [[m Hm]|(st & data & temp_data & humidity_data & vd & ts & hs
                & Hr & Hst & Hp & Hv & Hge)]; [congruence|].
  rewrite Hr, (respond_to_valid _ _ _ _ _ _ _ Hst Hp Hv Hge) in Hs.
  injection Hs as <-. cbn.
  pose proof (validated_series _ _ _ _ _ _ Hv) as (Hts & Hhs & _ & _ & Ft & Fh).
  rewrite !length_last5, Hts, Hhs.
  repeat split; try lia.
  exists url, st, data, temp_data, humidity_data.
  repeat split; try done.
  - apply Forall2_last5. eapply Forall2_impl; [exact Ft|]. by intros ?? [? _].
  - apply Forall2_last5. eapply Forall2_impl; [exact Fh|]. by intros ?? [? _].
Qed.


(** Beyond the URL it asks for, the handler keeps nothing of the query:
    the same reply gets the same response, whatever the query was. *)
Lemma response_of_reply_only (provider1 provider2 : api_url -> reply)
    (q1 q2 : query) (url1 url2 : api_url) :
  (serve provider1 q1).2 = [url1] -> (serve provider2 q2).2 = [url2] ->
  provider1 url1 = provider2 url2 ->
  (serve provider1 q1).1 = (serve provider2 q2).1.
Proof.
  unfold serve.
  destruct (get_nasa_power_data q1) as [r1|u1 k1] eqn:H1; [discriminate|].
  destruct (get_nasa_power_data q2) as [r2|u2 k2] eqn:H2; [discriminate|].
  apply fetch_inv in H1 as [-> _]. apply fetch_inv in H2 as [-> _].
  cbn. intros [= ->] [= ->] ->. done.
Qed.

(** ** Dates of the humidity series only *)

Lemma validate_days_insert_hum (temp_data humidity_data : gmap string pyval)
    (d : string) (v : pyval) (ds : list string) (acc : series) :
  d ∉ ds ->
  validate_days temp_data (PDict (<[d:=v]> humidity_data)) ds acc
  = validate_days temp_data (PDict humidity_data) ds acc.
Proof.
  revert acc. induction ds as [|date ds IH]; intros acc Hd; [done|].
  apply not_elem_of_cons in Hd as [Hne Hd]. cbn [validate_days].
  assert (E : validate_day temp_data (PDict (<[d:=v]> humidity_data)) acc date
              = validate_day temp_data (PDict humidity_data) acc date).
  { unfold validate_day, hum_at, get. by rewrite lookup_insert_ne. }
  rewrite E. clear E.
  destruct (validate_day temp_data (PDict humidity_data) acc date); cbn; auto.
Qed.

(** C10: the dates the pipeline works on are the sorted keys of the
    temperature series. A date that only the humidity series has changes
    nothing; the check for fewer than 3 raw dates counts the keys of the
    temperature series, whatever the humidity series holds; the validated
    dates are those keys whose two values pass, and the dates of a summary
    are among the sorted keys, in their order. *)
Theorem candidate_dates (temp_data : gmap string pyval) (humidity_data : pyval) :
  (forall (h : gmap string pyval) (d : string) (v : pyval),
     humidity_data = PDict h -> temp_data !! d = None ->
     reduce_series temp_data (PDict (<[d:=v]> h))
     = reduce_series temp_data humidity_data)
  /\ (size temp_data < 3 <->
      reduce_series temp_data humidity_data =
      Return (Failure 500 (msg_insufficient_history (py_sorted (keys temp_data)))))
  /\ length (py_sorted (keys temp_data)) = size temp_data
  /\ (forall date, date ∈ py_sorted (keys temp_data) <-> is_Some (temp_data !! date))
  /\ (forall vd ts hs,
        validate_days temp_data humidity_data
          (py_sorted (keys temp_data)) ([], [], []) = Go (vd, ts, hs) ->
        forall date, date ∈ vd <->
          is_Some (temp_data !! date)
          /\ is_Some (day_ok temp_data humidity_data date))
  /\ (forall s, reduce_series temp_data humidity_data = Return (Success s) ->
        dates s `sublist_of` py_sorted (keys temp_data)).
Proof.
  assert (Hkeys : forall date,
    date ∈ py_sorted (keys temp_data) <-> is_Some (temp_data !! date)).
  { intros date. by rewrite elem_of_py_sorted, elem_of_keys. }
  split; [|split; [|split; [|split; [exact Hkeys|split]]]].
  - intros h d v -> Hd.
    assert (Hnot : d ∉ py_sorted (keys temp_data)).
    { rewrite Hkeys, Hd. by intros [? ?]. }
    unfold reduce_series. by rewrite validate_days_insert_hum.
  - split; [apply reduce_series_few_dates|]. intros E.
    destruct (reduce_series_cases temp_data humidity_data)
      as [[? _]|[(_ & e & _ & He)|(_ & vd & ts & hs & Hv & Hr)]]; [done|congruence|].
    exfalso. rewrite Hr in E.
    pose proof (validated_series _ _ _ _ _ _ Hv) as (Hts & Hhs & _).
    destruct (Nat.lt_ge_cases (length ts) 3).
    + rewrite average_reducer_short in E by done. discriminate.
    + rewrite average_reducer_enough in E by lia. discriminate.
  - by rewrite length_py_sorted, length_keys.
  - intros vd ts hs Hv date.
    apply validated_series in Hv as (_ & _ & _ & -> & _).
    rewrite list_elem_of_fmap. split.
    + intros ([d' [t h]] & -> & Hin).
      apply list_elem_of_omap in Hin as (x & Hx & Hok).
      pose proof (day_ok_date _ _ _ _ _ _ Hok) as ->. cbn.
      split; [by apply Hkeys|by rewrite Hok].
    + intros [Hk [[d' [t h]] Hok]].
      pose proof (day_ok_date _ _ _ _ _ _ Hok) as ->.
      exists (date, (t, h)). split; [done|].
      apply list_elem_of_omap. exists date. split; [by apply Hkeys|done].
  - intros s Hs.
    destruct (reduce_series_cases temp_data humidity_data)
      as [[_ E]|[(_ & e & _ & E)|(_ & vd & ts & hs & Hv & E)]]; [congruence..|].
    rewrite E in Hs.
    pose proof (validated_series _ _ _ _ _ _ Hv) as (Hts & Hhs & Hsub & _).
    destruct (Nat.lt_ge_cases (length ts) 3).
    + rewrite average_reducer_short in Hs by done. discriminate.
    + rewrite average_reducer_enough in Hs by lia. injection Hs as <-. cbn.
      etrans; [apply sublist_drop|done].
Qed.

(** * Further properties of the handler *)

(** ** Status codes *)

(** X1 (lines 27-32, 245-248): the handler answers with HTTP 400 exactly
    when line 31 turns the query away, that is when a parameter is
    missing, a coordinate is zero or the date is empty; it then asks the
    provider nothing. Every other failure carries status 500. *)
Theorem bad_request_iff (provider : api_url -> reply) (q : query) :
  ((exists msg, (serve provider q).1 = Failure 400 msg) <-> rejected q = true)
  /\ (rejected q = true ->
      serve provider q = (Failure 400 [Lit "緯度、経度、日付が必要です"], []))
  /\ (forall status msg,
        (serve provider q).1 = Failure status msg ->
        status = 400%Z \/ status = 500%Z).
Proof.
  assert (Hrej : rejected q = true ->
    serve provider q = (Failure 400 [Lit "緯度、経度、日付が必要です"], [])).
  { unfold rejected, serve, get_nasa_power_data.
    destruct (lat q) as [la|], (lng q) as [lo|], (date_str q) as [d|]; try done.
    cbn [truthy]. intros H. rewrite !negb_involutive, H. done. }
  assert (Hacc : rejected q = false ->
    exists msg, (serve provider q).1 = Failure 500 msg
    \/ exists url, (serve provider q).1 = respond_to (provider url)).
  { unfold rejected, serve, get_nasa_power_data.
    destruct (lat q) as [la|], (lng q) as [lo|], (date_str q) as [d|]; try done.
    cbn [truthy]. intros H. rewrite !negb_involutive, H.
    destruct (request_window d) as [e|[s e]]; cbn.
    - destruct (handle_exn_Raise e) as [msg Hm]. exists msg. left. exact Hm.
    - exists []. right. eauto. }
  split; [split|split; [exact Hrej|]].
  - intros [msg Hm]. destruct (rejected q) eqn:Hq; [done|].
    destruct (Hacc eq_refl) as [m [Hs|[url Hs]]]; rewrite Hs in Hm;
      [discriminate|].
    by apply respond_to_not_400 in Hm.
  - intros Hq. rewrite (Hrej Hq). eauto.
  - intros status msg Hs. destruct (rejected q) eqn:Hq.
    + rewrite (Hrej eq_refl) in Hs. injection Hs as <- _. by left.
    + destruct (Hacc eq_refl) as [m [Hm|[url Hm]]]; rewrite Hm in Hs.
      * injection Hs as <- _. by right.
      * destruct (respond_to_cases (provider url))
          as [[m' Hm']|(st & data & temp_data & humidity_data & vd & ts & hs
                        & Hr & Hst & Hp & Hv & Hge)].
        -- rewrite Hm' in Hs. injection Hs as <- _. by right.
        -- rewrite Hr, (respond_to_valid _ _ _ _ _ _ _ Hst Hp Hv Hge) in Hs.
           discriminate.
Qed.


(** ** Successful responses *)

(** What a successful answer to a reply comes from. *)
Lemma respond_to_Success (r : reply) (s : summary) :
  respond_to r = Success s ->
  exists status_code data temp_data humidity_data vd ts hs,
    r = GetReturns status_code (inr data)
    /\ (status_code = 200 \/ ~ (400 <= status_code < 600))%Z
    /\ payload_series data = Some (temp_data, humidity_data)
    /\ validate_days temp_data humidity_data
         (py_sorted (keys temp_data)) ([], [], []) = Go (vd, ts, hs)
    /\ 3 <= length vd
    /\ dates s = last5 vd /\ temperatures s = last5 ts
    /\ humidities s = last5 hs.
Proof.
  intros Hs.
  destruct (respond_to_cases r)
    as [[m Hm]|(st & data & temp_data & humidity_data & vd & ts & hs
                & Hr & Hst & Hp & Hv & Hge)]; [congruence|].
  exists st, data, temp_data, humidity_data, vd, ts, hs.
  rewrite Hr, (respond_to_valid _ _ _ _ _ _ _ Hst Hp Hv Hge) in Hs.
  by injection Hs as <-.
Qed.


Lemma hum_filter_accepts (h : float) :
  hum_filter h = Some h -> ((0 <=? h)%float && (h <=? 100)%float) = true.
Proof. unfold hum_filter. float_order h. Qed.

Lemma Forall_last5 {A} (P : A -> Prop) (l : list A) :
  Forall P l -> Forall P (last5 l).
Proof. apply Forall_drop. Qed.

(** X4 (lines 150-199): on every successful response each reported
    temperature lies in [-100, 400] and each reported humidity in
    [0, 100]; in particular no NaN, no infinity and none of the provider's
    missing-data markers reaches the summary. *)
Theorem reported_values_in_range (provider : api_url -> reply) (q : query)
    (s : summary) :
  (serve provider q).1 = Success s ->
  Forall (fun t => ((-100 <=? t)%float && (t <=? 400)%float) = true)
    (temperatures s)
  /\ Forall (fun h => ((0 <=? h)%float && (h <=? 100)%float) = true)
       (humidities s).
Proof.
  intros H. apply serve_Success in H as (url & _ & Hs).
  apply respond_to_Success in Hs
    as (st & data & temp_data & humidity_data & vd & ts & hs
        & _ & _ & _ & Hv & _ & _ & -> & ->).
  apply validated_series in Hv as (_ & _ & _ & _ & Ft & Fh).
  split; apply Forall_last5.
  - eapply Forall2_Forall_r; [exact Ft|]. apply Forall_true.
    intros d t [_ Ht]. rewrite temp_filter_range in Ht.
    by destruct (_ && _).
  - eapply Forall2_Forall_r; [exact Fh|]. apply Forall_true.
    intros d h [_ Hh]. by apply hum_filter_accepts.
Qed.

Lemma digits_value_String (c : Ascii.ascii) (s : string) (x : Z) :
  digits_value (String c s) = Some x ->
  exists v, (48 <= Z.of_N (Ascii.N_of_ascii c) <= 57)%Z
    /\ digits_value s = Some v
    /\ x = ((Z.of_N (Ascii.N_of_ascii c) - 48)
            * 10 ^ Z.of_nat (String.length s) + v)%Z.
Proof.
  cbn [digits_value]. unfold digit_of.
  destruct (Z.leb_spec 48 (Z.of_N (Ascii.N_of_ascii c))); [|discriminate].
  destruct (Z.leb_spec (Z.of_N (Ascii.N_of_ascii c)) 57); [|discriminate].
  cbn. destruct (digits_value s) as [v|]; [|discriminate]. cbn.
  intros [= <-]. by exists v.
Qed.

Lemma digits_value_bound (s : string) (v : Z) :
  digits_value s = Some v -> (0 <= v < 10 ^ Z.of_nat (String.length s))%Z.
Proof.
  revert v. induction s as [|c s IH]; intros v.
  - intros [= <-]. cbn. lia.
  - intros (w & Hc & Hw & ->)%digits_value_String.
    specialize (IH w Hw). cbn [String.length].
    rewrite Nat2Z.inj_succ, Z.pow_succ_r by lia. nia.
Qed.

(** On strings of digits of one length the order of the strings is the
    order of the numbers. *)
Lemma compare_digits (a b : string) (x y : Z) :
  String.length a = String.length b ->
  digits_value a = Some x -> digits_value b = Some y ->
  String.compare a b = (x ?= y)%Z.
Proof.
  revert b x y. induction a as [|c a IH]; intros [|c' b] x y Hlen;
    try discriminate.
  - by intros [= <-] [= <-].
  - injection Hlen as Hlen.
    intros (v & Hc & Ha & ->)%digits_value_String
           (w & Hc' & Hb & ->)%digits_value_String.
    pose proof (digits_value_bound _ _ Ha) as Bv.
    pose proof (digits_value_bound _ _ Hb) as Bw.
    rewrite <- Hlen in Bw |- *.
    specialize (IH b v w Hlen Ha Hb).
    cbn [String.compare]. unfold Ascii.compare. rewrite <- N2Z.inj_compare.
    set (n := Z.of_N (Ascii.N_of_ascii c)) in *.
    set (m := Z.of_N (Ascii.N_of_ascii c')) in *.
    set (p := (10 ^ Z.of_nat (String.length a))%Z) in *.
    destruct (Z.compare_spec n m) as [E|L|G].
    + rewrite IH, E. destruct (Z.compare_spec v w);
        symmetry; [apply Z.compare_eq_iff|apply Z.compare_lt_iff
                  |apply Z.compare_gt_iff]; lia.
    + symmetry. apply Z.compare_lt_iff. nia.
    + symmetry. apply Z.compare_gt_iff. nia.
Qed.

Lemma date_before_intro (a b : string) :
  is_Some (date_number a) -> is_Some (date_number b) ->
  String.le a b -> a <> b -> date_before a b.
Proof.
  intros [x Hx] [y Hy] Hle Hne. exists x, y. split; [done|]. split; [done|].
  unfold date_number in Hx, Hy.
  destruct (Nat.eqb_spec (String.length a) 8) as [La|]; [|discriminate].
  destruct (Nat.eqb_spec (String.length b) 8) as [Lb|]; [|discriminate].
  pose proof (compare_digits a b x y (eq_trans La (eq_sym Lb)) Hx Hy) as Hc.
  unfold String.le, String.leb in Hle.
  destruct (Z.compare_spec x y) as [E|L|G]; [|done|].
  - by apply String.compare_eq_iff in Hc.
  - by rewrite Hc in Hle.
Qed.

Lemma StronglySorted_dates_before (l : list string) :
  StronglySorted String.le l -> NoDup l ->
  Forall (fun d => is_Some (date_number d)) l ->
  StronglySorted date_before l.
Proof.
  induction 1 as [|d l Hs IH Hd]; intros Hn Hf; [constructor|].
  apply NoDup_cons in Hn as [Hnot Hn]. apply Forall_cons in Hf as [Hfd Hf].
  constructor; [by apply IH|].
  apply Forall_forall. intros b Hb.
  apply date_before_intro; try done.
  - by eapply Forall_forall in Hf.
  - by eapply Forall_forall in Hd.
  - by intros ->.
Qed.

(** X5 (lines 39-40, 108, 134-199, 219-225): on every successful
    response the dates ascend in the order of line 108, the order of the
    strings, and none is repeated. When they are dates of 8 digits, the
    format in which the window is asked, this is the order of the
    calendar: each reported date is before the next. *)
Theorem summary_dates_ascend (provider : api_url -> reply) (q : query)
    (s : summary) :
  (serve provider q).1 = Success s ->
  StronglySorted String.le (dates s) /\ NoDup (dates s)
  /\ (Forall (fun d => is_Some (date_number d)) (dates s) ->
      StronglySorted date_before (dates s)).
Proof.
  intros H. apply serve_Success in H as (url & _ & Hs).
  apply respond_to_Success in Hs
    as (st & data & temp_data & humidity_data & vd & ts & hs
        & _ & _ & _ & Hv & _ & -> & _).
  apply validated_series in Hv as (_ & _ & Hsub & _).
  assert (Hsub5 : last5 vd `sublist_of` py_sorted (keys temp_data)).
  { etrans; [apply sublist_drop|exact Hsub]. }
  assert (Hsorted : StronglySorted String.le (last5 vd)).
  { eapply StronglySorted_sublist; [exact Hsub5|apply py_sorted_sorted]. }
  assert (Hnodup : NoDup (last5 vd)).
  { eapply sublist_NoDup; [apply py_sorted_NoDup, keys_NoDup|exact Hsub5]. }
  split; [done|]. split; [done|].
  by apply StronglySorted_dates_before.
Qed.

(** ** Values that [float()] refuses *)





(** ** Values wrapped in a list *)

Lemma validate_days_ext (temp1 temp2 : gmap string pyval) (hum1 hum2 : pyval)
    (ds : list string) (acc : series) :
  (forall date, date ∈ ds ->
     unwrap (get temp1 date) = unwrap (get temp2 date)
     /\ unwrap (hum_at hum1 date) = unwrap (hum_at hum2 date)) ->
  validate_days temp1 hum1 ds acc = validate_days temp2 hum2 ds acc.
Proof.
  revert acc. induction ds as [|date ds IH]; intros acc H; [done|].
  cbn [validate_days].
  assert (E : validate_day temp1 hum1 acc date = validate_day temp2 hum2 acc date).
  { unfold validate_day. destruct (H date) as [-> ->]; [by left|done]. }
  rewrite E. destruct (validate_day temp2 hum2 acc date); cbn; [|done..].
  apply IH. intros d Hd. apply H. by right.
Qed.

(** The sorted dates depend on the set of keys only. *)
Lemma py_sorted_keys_dom (temp1 temp2 : gmap string pyval) :
  dom temp1 = dom temp2 -> py_sorted (keys temp1) = py_sorted (keys temp2).
Proof.
  intros Hdom.
  apply (Sorted_unique String.le).
  - apply Sorted_merge_sort; apply _.
  - apply Sorted_merge_sort; apply _.
  - apply NoDup_Permutation.
    + apply py_sorted_NoDup, keys_NoDup.
    + apply py_sorted_NoDup, keys_NoDup.
    + intros x. rewrite !elem_of_py_sorted, !elem_of_keys, <- !elem_of_dom.
      by rewrite Hdom.
Qed.

Lemma reduce_series_ext (temp1 temp2 : gmap string pyval) (hum1 hum2 : pyval) :
  dom temp1 = dom temp2 ->
  (forall date, unwrap (get temp1 date) = unwrap (get temp2 date)) ->
  (forall date, unwrap (hum_at hum1 date) = unwrap (hum_at hum2 date)) ->
  reduce_series temp1 hum1 = reduce_series temp2 hum2.
Proof.
  intros Hdom Ht Hh. unfold reduce_series.
  rewrite (py_sorted_keys_dom _ _ Hdom).
  by rewrite (validate_days_ext temp1 temp2 hum1 hum2).
Qed.

(** X7 (lines 143-148): a value that comes wrapped in a list is read as
    the first element of the list. Wrapping the temperature or the
    humidity of a date in a list, with anything after it, changes
    nothing of the outcome when the value is not itself a list; an
    empty list counts as [None]. *)
Theorem list_wrapping (temp_data humidity_data : gmap string pyval)
    (hum : pyval) (date : string) (v : pyval) (rest : list pyval) :
  unwrap v = v ->
  (temp_data !! date = Some v ->
     reduce_series (<[date := PList (v :: rest)]> temp_data) hum
     = reduce_series temp_data hum)
  /\ (humidity_data !! date = Some v ->
      reduce_series temp_data (PDict (<[date := PList (v :: rest)]> humidity_data))
      = reduce_series temp_data (PDict humidity_data))
  /\ reduce_series (<[date := PList []]> temp_data) hum
     = reduce_series (<[date := PNone]> temp_data) hum
  /\ reduce_series temp_data (PDict (<[date := PList []]> humidity_data))
     = reduce_series temp_data (PDict (<[date := PNone]> humidity_data)).
Proof.
  intros Hv.
  assert (Hget : forall (m : gmap string pyval) (a b : pyval) (d : string),
    unwrap a = unwrap b ->
    unwrap (get (<[date := a]> m) d) = unwrap (get (<[date := b]> m) d)).
  { intros m a b d Hab. unfold get.
    destruct (decide (date = d)) as [->|Hne].
    - by rewrite !lookup_insert_eq.
    - by rewrite !lookup_insert_ne. }
  assert (Hid : forall (m : gmap string pyval) (d : string),
    m !! date = Some v ->
    unwrap (get (<[date := PList (v :: rest)]> m) d) = unwrap (get m d)).
  { intros m d Hm. rewrite <- (insert_id m date v Hm) at 2.
    apply Hget. by rewrite Hv. }
  split; [|split; [|split]].
  - intros Hm. apply reduce_series_ext; [|by intros d; apply Hid|done].
    apply dom_insert_lookup_L. by rewrite Hm.
  - intros Hm. apply reduce_series_ext; [done..|].
    intros d. by apply Hid.
  - apply reduce_series_ext; [by rewrite !dom_insert_L| |done].
    intros d. by apply Hget.
  - apply reduce_series_ext; [done..|]. intros d. by apply (Hget humidity_data).
Qed.

(** ** Dates without a humidity *)


(** ** Days that are skipped *)





(** ** Exceptions after the fetch *)



End Handler.

(** * The handler on the sample data *)

Example tokyo_week :
  serve sample_float_of_str sample_window week_provider tokyo
  = (Success week_summary, [tokyo_url]).
Proof. vm_compute. reflexivity. Qed.

Example celsius_three_days :
  respond_to sample_float_of_str (GetReturns 200 (inr celsius_payload))
  = Success celsius_summary.
Proof. vm_compute. reflexivity. Qed.

Example celsius_days_validated :
  validate_days sample_float_of_str celsius_T2M (PDict celsius_RH2M)
    (py_sorted (keys celsius_T2M)) ([], [], []) = Go celsius_days.
Proof. vm_compute. reflexivity. Qed.

(** C2 fails on the code for a point on the equator (and likewise on the
    prime meridian): latitude 0.0 is present and parsable, the provider
    would answer with 6 valid days, and the handler turns the query away
    as incomplete without asking; the same run for Tokyo succeeds with
    the 5 most recent valid days. *)
Lemma equator_rejected :
  serve sample_float_of_str sample_window week_provider equator
    = (Failure 400 [Lit "緯度、経度、日付が必要です"], [])
  /\ validate_days sample_float_of_str week_T2M (PDict week_RH2M)
       (py_sorted (keys week_T2M)) ([], [], []) = Go week_days
  /\ serve sample_float_of_str sample_window week_provider tokyo
       = (Success week_summary, [tokyo_url]).
Proof. repeat split; vm_compute; reflexivity. Qed.


Example missing_lng_bad_request :
  serve sample_float_of_str sample_window week_provider no_lng
  = (Failure 400 [Lit "緯度、経度、日付が必要です"], []).
Proof. vm_compute. reflexivity. Qed.

(** C7, as stated, fails: a temperature series that is present and empty
    has fewer than 3 dates, and the handler reports the series as missing
    instead, in a message without the number of dates. *)
Lemma empty_series_reported_missing :
  payload_series empty_T2M_payload = Some (∅, PDict week_RH2M)
  /\ size (∅ : gmap string pyval) < 3
  /\ respond_to sample_float_of_str (GetReturns 200 (inr empty_T2M_payload))
     = Failure 500 (msg_no_T2M ["RH2M"; "T2M"])
  /\ msg_no_T2M ["RH2M"; "T2M"] <> msg_insufficient_history [].
Proof. repeat split; try (vm_compute; reflexivity); try (vm_compute; lia); discriminate. Qed.

(** ** The theorems on the sample data *)

(** Three validated days: the reducer succeeds and uses the three. *)
Lemma insufficient_valid_data_witness :
  validate_days sample_float_of_str celsius_T2M (PDict celsius_RH2M)
    (py_sorted (keys celsius_T2M)) ([], [], []) = Go celsius_days
  /\ exists s,
       average_reducer celsius_days.1.1 celsius_days.1.2 celsius_days.2
         = Return (Success s)
       /\ dataDays s = 3.
Proof.
  split; [vm_compute; reflexivity|].
  destruct (insufficient_valid_data sample_float_of_str celsius_T2M
              (PDict celsius_RH2M) (py_sorted (keys celsius_T2M))
              celsius_days.1.1 celsius_days.1.2 celsius_days.2)
    as (_ & _ & _ & H); [vm_compute; reflexivity|].
  destruct H as (s & Hs & Hn & _); [vm_compute; lia|].
  exists s. split; [exact Hs|exact Hn].
Defined.


(** Two raw dates, one of them with a temperature that [float()] would
    refuse: the count decides before any value is looked at. *)
Lemma insufficient_history_witness :
  payload_series short_payload = Some (short_T2M, PDict week_RH2M)
  /\ truthy (PDict week_RH2M) = true
  /\ 0 < size short_T2M < 3
  /\ respond_to sample_float_of_str (GetReturns 200 (inr short_payload))
     = Failure 500 (msg_insufficient_history ["20240109"; "20240110"]).
Proof.
  split; [vm_compute; reflexivity|]. split; [vm_compute; reflexivity|].
  split; [vm_compute; lia|].
  apply (insufficient_history sample_float_of_str short_payload short_T2M
           (PDict week_RH2M)); [vm_compute; reflexivity..|vm_compute; lia].
Defined.

(** The summary of the week: five days, reported as the provider sent
    them (Kelvin), next to an average in degrees Celsius. *)
Lemma summary_invariant_witness :
  (serve sample_float_of_str sample_window week_provider tokyo).1
    = Success week_summary
  /\ length (dates week_summary) = dataDays week_summary
  /\ 3 <= dataDays week_summary <= 5.
Proof.
  split; [vm_compute; reflexivity|].
  destruct (summary_invariant sample_float_of_str sample_window week_provider
              tokyo week_summary) as (H1 & _ & _ & H2 & _);
    [vm_compute; reflexivity|].
  split; [exact H1|exact H2].
Defined.


(** A date added to the humidity series only. *)
Lemma candidate_dates_witness :
  celsius_T2M !! "20240112" = None
  /\ reduce_series sample_float_of_str celsius_T2M
       (PDict (<["20240112" := PFloat 50]> celsius_RH2M))
     = reduce_series sample_float_of_str celsius_T2M (PDict celsius_RH2M).
Proof.
  split; [vm_compute; reflexivity|].
  apply (candidate_dates sample_float_of_str celsius_T2M (PDict celsius_RH2M));
    [reflexivity|vm_compute; reflexivity].
Defined.

(** ** The further properties on the sample data *)

(** The summary of the week: every reported value is in range. *)
Lemma reported_values_in_range_witness :
  (serve sample_float_of_str sample_window week_provider tokyo).1
    = Success week_summary
  /\ Forall (fun t => ((-100 <=? t)%float && (t <=? 400)%float) = true)
       (temperatures week_summary)
  /\ Forall (fun h => ((0 <=? h)%float && (h <=? 100)%float) = true)
       (humidities week_summary).
Proof.
  split; [vm_compute; reflexivity|].
  apply (reported_values_in_range sample_float_of_str sample_window
           week_provider tokyo week_summary).
  vm_compute. reflexivity.
Defined.

(** The dates of the week's summary, 5 January to 10 January 2024, in
    the order of the calendar. *)
Lemma summary_dates_ascend_witness :
  (serve sample_float_of_str sample_window week_provider tokyo).1
    = Success week_summary
  /\ date_number "20240105" = Some 20240105%Z
  /\ StronglySorted date_before (dates week_summary).
Proof.
  split; [vm_compute; reflexivity|]. split; [vm_compute; reflexivity|].
  destruct (summary_dates_ascend sample_float_of_str sample_window
              week_provider tokyo week_summary) as (_ & _ & H);
    [vm_compute; reflexivity|].
  apply H. repeat (constructor; [eexists; reflexivity|]). constructor.
Defined.


(** The temperature of 4 January sent as a list of two elements. *)
Lemma list_wrapping_witness :
  week_T2M !! "20240104" = Some (PFloat 290.25)
  /\ reduce_series sample_float_of_str
       (<["20240104" := PList [PFloat 290.25; PStr "estimated"]]> week_T2M)
       (PDict week_RH2M)
     = reduce_series sample_float_of_str week_T2M (PDict week_RH2M).
Proof.
  split; [vm_compute; reflexivity|].
  destruct (list_wrapping sample_float_of_str week_T2M week_RH2M
              (PDict week_RH2M) "20240104" (PFloat 290.25)
              [PStr "estimated"]) as (H & _); [reflexivity|].
  apply H. vm_compute. reflexivity.
Defined.




